(** * A shallow embedding of [realtime_stt.py] (class [RealtimeSTT] and [main])

    The three stages of the pipeline are modelled as follows.
    - The object [RealtimeSTT] is the record [stt]: its attributes
      [sample_rate], [block_size], [running], [audio_queue], [result_queue],
      the optional attribute [stream] (absent until [start] runs, hence
      [hasattr(self, 'stream')]), the state of the Kaldi recognizer and the
      state of the consumer callback.
    - The two worker threads ([_process_audio], [_output_processor]) are
      interpreted by a scheduler: one scheduled step of a worker is either
      the loop test [while self.running] followed by one
      [queue.get(timeout=2)] (which yields an item or times out), or the
      processing of the item obtained by that [get].
    - The audio device calls [_audio_callback] whenever its stream is active.
    - Every observable effect (device calls, recognizer calls, queue puts,
      callback invocations, log lines, prints) is appended to a trace. *)

From Stdlib Require Import String Ascii List ZArith Bool Lia.
Import ListNotations.
Open Scope string_scope.
Open Scope list_scope.

(** ** Python strings and [str.strip()] *)

(** [str.isspace] on the code points 0..255 that an [ascii] character
    stands for: \t \n \x0b \x0c \r, \x1c..\x1f, the space, \x85 and \xa0. *)
Definition is_py_space (c : ascii) : bool :=
  let n := nat_of_ascii c in
  (((9 <=? n) && (n <=? 13)) || ((28 <=? n) && (n <=? 32))
   || (n =? 133) || (n =? 160))%nat.

Fixpoint lstrip_list (l : list ascii) : list ascii :=
  match l with
  | [] => []
  | c :: r => if is_py_space c then lstrip_list r else l
  end.

(** [s.strip()]: leading and trailing whitespace removed. *)
Definition strip (s : string) : string :=
  string_of_list_ascii
    (rev (lstrip_list (rev (lstrip_list (list_ascii_of_string s))))).

(** Python truthiness of a string: non-empty. *)
Definition str_truthy (s : string) : bool :=
  match s with EmptyString => false | _ => true end.

(** ** Data *)

Definition bytes := list Byte.byte.

Inductive wkind := ProcessAudio | OutputProcessor.

Inductive dtype := Int16.

(** The handler registered on the stream. *)
Inductive handler := AudioCallbackHandler.

(** [sd.RawInputStream(samplerate, blocksize, dtype, channels, callback)]. *)
Record stream_t := mkStream {
  s_samplerate : Z;
  s_blocksize : Z;
  s_dtype : dtype;
  s_channels : Z;
  s_callback : handler;
  s_active : bool;
  s_closed : bool
}.

Inductive event :=
| EPrint (msg : string)
| EInfo (msg : string)
| EWarning (status : Z)
| EError (msg : string)
| ESetRunning (b : bool)
| EOpen (samplerate blocksize : Z) (dt : dtype) (channels : Z) (cb : handler)
| EStreamStart
| EStreamStop
| EStreamClose
| EThreadStart (k : wkind)
| EPutAudio (b : bytes)
| EAccept (b : bytes)
| EResultPut (t : string)
| ECallback (t : string).

(** A thread's position in its loop: at the loop test, holding the item its
    [get] returned, or finished. *)
Inductive tstate :=
| TTop
| THoldBlock (b : bytes)
| THoldText (t : string)
| TExited.

(** Actions of the environment: the controller's calls, a block delivered
    by the device (with its [CallbackFlags] as an integer), and one step of
    the [i]-th worker thread. *)
Inductive action :=
| AStart
| AStop
| ADeliver (indata : bytes) (status : Z)
| AStep (i : nat).

(** Python exceptions that matter for [main]. *)
Inductive exn :=
| SystemExit (code : Z)
| KeyboardInterrupt
| PyException (msg : string).

Fixpoint upd {A} (l : list A) (i : nat) (x : A) : list A :=
  match l, i with
  | [], _ => []
  | _ :: r, O => x :: r
  | y :: r, S j => y :: upd r j x
  end.

(** ** The pipeline, parameterised by the external collaborators *)

Section Pipeline.

(** The Kaldi recognizer: its state, [KaldiRecognizer(model, sample_rate)],
    [AcceptWaveform] ([None] when it raises) and [json.loads(Result())]
    ([None] when that raises, [Some None] for a dict without a ["text"] key,
    [Some (Some t)] for a dict whose ["text"] is [t]). *)
Context {RS : Type}.
Variable new_recognizer : Z -> RS.
Variable AcceptWaveform : RS -> bytes -> RS * option bool.
Variable Result : RS -> RS * option (option string).

(** The consumer callback, with a state of its own; the boolean is [true]
    when the call raises. *)
Context {CB : Type}.
Variable cb_init : CB.
Variable callback : CB -> string -> CB * bool.

Record stt := mkSTT {
  sample_rate : Z;
  block_size : Z;
  running : bool;
  audio_queue : list bytes;
  result_queue : list string;
  stream : option stream_t;
  recognizer : RS;
  cb_state : CB
}.

Definition set_running (o : stt) (b : bool) : stt :=
  mkSTT o.(sample_rate) o.(block_size) b o.(audio_queue) o.(result_queue)
        o.(stream) o.(recognizer) o.(cb_state).
Definition set_audio_queue (o : stt) (q : list bytes) : stt :=
  mkSTT o.(sample_rate) o.(block_size) o.(running) q o.(result_queue)
        o.(stream) o.(recognizer) o.(cb_state).
Definition set_result_queue (o : stt) (q : list string) : stt :=
  mkSTT o.(sample_rate) o.(block_size) o.(running) o.(audio_queue) q
        o.(stream) o.(recognizer) o.(cb_state).
Definition set_stream (o : stt) (s : option stream_t) : stt :=
  mkSTT o.(sample_rate) o.(block_size) o.(running) o.(audio_queue)
        o.(result_queue) s o.(recognizer) o.(cb_state).
Definition set_recognizer (o : stt) (r : RS) : stt :=
  mkSTT o.(sample_rate) o.(block_size) o.(running) o.(audio_queue)
        o.(result_queue) o.(stream) r o.(cb_state).
Definition set_cb_state (o : stt) (c : CB) : stt :=
  mkSTT o.(sample_rate) o.(block_size) o.(running) o.(audio_queue)
        o.(result_queue) o.(stream) o.(recognizer) c.

(** [__init__] once [Model(model_path)] has loaded. *)
Definition new_stt (sr : Z) : stt :=
  mkSTT sr 8000 false [] [] None (new_recognizer sr) cb_init.

(** [_audio_callback(indata, frames, time, status)]. *)
Definition _audio_callback (o : stt) (indata : bytes) (status : Z)
  : stt * list event :=
  let warn := if negb (status =? 0)%Z then [EWarning status] else [] in
  if o.(running)
  then (set_audio_queue o (o.(audio_queue) ++ [indata]), warn ++ [EPutAudio indata])
  else (o, warn).

(** The body of the [try] in [_process_audio], after [get] returned
    [audio_data]; every raised exception goes to the [except Exception]
    branch, which logs and continues. *)
Definition process_block (o : stt) (audio_data : bytes) : stt * list event :=
  let err := EError "Error processing audio" in
  let (r1, acc) := AcceptWaveform o.(recognizer) audio_data in
  let o1 := set_recognizer o r1 in
  match acc with
  | None => (o1, [EAccept audio_data; err])
  | Some false => (o1, [EAccept audio_data])
  | Some true =>
      let (r2, res) := Result r1 in
      let o2 := set_recognizer o1 r2 in
      match res with
      | None => (o2, [EAccept audio_data; err])
      | Some txt =>
          let text := match txt with Some t => t | None => "" end in
          if str_truthy (strip text)
          then (set_result_queue o2 (o2.(result_queue) ++ [text]),
                [EAccept audio_data; EResultPut text])
          else (o2, [EAccept audio_data])
      end
  end.

(** The body of the [try] in [_output_processor], after [get] returned
    [text]. *)
Definition dispatch_text (o : stt) (text : string) : stt * list event :=
  let (c, raised) := callback o.(cb_state) text in
  (set_cb_state o c,
   ECallback text :: (if raised then [EError "Error in output processor"] else [])).

(** [start()], on the object: the two threads it launches are added by
    [cfg_start]. *)
Definition start_obj (o : stt) : stt * list event :=
  let o1 := set_running o true in
  let s := mkStream o1.(sample_rate) o1.(block_size) Int16 1
                    AudioCallbackHandler true false in
  (set_stream o1 (Some s),
   [ESetRunning true;
    EOpen o1.(sample_rate) o1.(block_size) Int16 1 AudioCallbackHandler;
    EStreamStart;
    EThreadStart ProcessAudio; EThreadStart OutputProcessor;
    EInfo "Real-time STT system started"]).

(** [stop()]. *)
Definition stop (o : stt) : stt * list event :=
  let o1 := set_running o false in
  match o1.(stream) with
  | Some s =>
      (set_stream o1 (Some (mkStream s.(s_samplerate) s.(s_blocksize) s.(s_dtype)
                              s.(s_channels) s.(s_callback) false true)),
       [ESetRunning false; EStreamStop; EStreamClose;
        EInfo "Real-time STT system stopped"])
  | None => (o1, [ESetRunning false; EInfo "Real-time STT system stopped"])
  end.

(** ** The scheduler *)

Record cfg := mkCfg {
  obj : stt;
  threads : list (wkind * tstate);
  trace : list event
}.

Definition cfg_start (c : cfg) : cfg :=
  let (o, evs) := start_obj c.(obj) in
  mkCfg o (c.(threads) ++ [(ProcessAudio, TTop); (OutputProcessor, TTop)])
        (c.(trace) ++ evs).

Definition cfg_stop (c : cfg) : cfg :=
  let (o, evs) := stop c.(obj) in mkCfg o c.(threads) (c.(trace) ++ evs).

(** The device calls the handler only while its stream is active. *)
Definition cfg_deliver (c : cfg) (indata : bytes) (status : Z) : cfg :=
  match c.(obj).(stream) with
  | Some s =>
      if s.(s_active)
      then let (o, evs) := _audio_callback c.(obj) indata status in
           mkCfg o c.(threads) (c.(trace) ++ evs)
      else c
  | None => c
  end.

(** One step of the [i]-th worker. *)
Definition cfg_step (c : cfg) (i : nat) : cfg :=
  let o := c.(obj) in
  match nth_error c.(threads) i with
  | Some (k, TTop) =>
      if o.(running) then
        match k with
        | ProcessAudio =>
            match o.(audio_queue) with
            | [] => c
            | b :: q => mkCfg (set_audio_queue o q)
                              (upd c.(threads) i (k, THoldBlock b)) c.(trace)
            end
        | OutputProcessor =>
            match o.(result_queue) with
            | [] => c
            | t :: q => mkCfg (set_result_queue o q)
                              (upd c.(threads) i (k, THoldText t)) c.(trace)
            end
        end
      else mkCfg o (upd c.(threads) i (k, TExited)) c.(trace)
  | Some (ProcessAudio, THoldBlock b) =>
      let (o', evs) := process_block o b in
      mkCfg o' (upd c.(threads) i (ProcessAudio, TTop)) (c.(trace) ++ evs)
  | Some (OutputProcessor, THoldText t) =>
      let (o', evs) := dispatch_text o t in
      mkCfg o' (upd c.(threads) i (OutputProcessor, TTop)) (c.(trace) ++ evs)
  | _ => c
  end.

Definition exec (c : cfg) (a : action) : cfg :=
  match a with
  | AStart => cfg_start c
  | AStop => cfg_stop c
  | ADeliver d s => cfg_deliver c d s
  | AStep i => cfg_step c i
  end.

Fixpoint run (c : cfg) (sched : list action) : cfg :=
  match sched with
  | [] => c
  | a :: r => run (exec c a) r
  end.

(** The configuration right after a successful [RealtimeSTT(...)]. *)
Definition init_cfg (sr : Z) : cfg := mkCfg (new_stt sr) [] [].

(** ** [main], in a small exception-and-trace monad

    [main] runs on the process's main thread; the worker threads it starts
    are the scheduler's business and do not appear here. *)

Record world := mkWorld { w_trace : list event; w_stt : option stt }.

Definition M (A : Type) := world -> (A + exn) * world.

Definition ret {A} (x : A) : M A := fun w => (inl x, w).
Definition bind {A B} (m : M A) (k : A -> M B) : M B :=
  fun w => match m w with
           | (inl x, w1) => k x w1
           | (inr e, w1) => (inr e, w1)
           end.
Definition raise {A} (e : exn) : M A := fun w => (inr e, w).

Local Notation "x <- m ;; k" := (bind m (fun x => k))
  (at level 61, m at next level, right associativity).
Local Notation "m ;; k" := (bind m (fun _ => k))
  (at level 61, right associativity).

(** [try: body except ...:] where [h e] is [Some handler] when an
    [except] clause matches [e]. *)
Definition try_except {A} (body : M A) (h : exn -> option (M A)) : M A :=
  fun w => match body w with
           | (inr e, w1) => match h e with Some k => k w1 | None => (inr e, w1) end
           | r => r
           end.

(** [try: body finally: fin]: an exception raised by [fin] replaces the
    outcome of [body]. *)
Definition try_finally {A} (body : M A) (fin : M unit) : M A :=
  fun w => match body w with
           | (r, w1) => match fin w1 with
                        | (inl _, w2) => (r, w2)
                        | (inr e, w2) => (inr e, w2)
                        end
           end.

Definition emit (evs : list event) : M unit :=
  fun w => (inl tt, mkWorld (w.(w_trace) ++ evs) w.(w_stt)).
Definition print (msg : string) : M unit := emit [EPrint msg].
Definition sys_exit {A} (code : Z) : M A := raise (SystemExit code).
Definition set_local (o : stt) : M unit :=
  fun w => (inl tt, mkWorld w.(w_trace) (Some o)).
Definition get_local : M (option stt) := fun w => (inl w.(w_stt), w).

(** [RealtimeSTT(model_path, sample_rate)]; [model_ok] says whether
    [Model(model_path)] and [KaldiRecognizer(...)] succeed. *)
Definition RealtimeSTT_init (model_ok : bool) (sr : Z) : M stt :=
  if model_ok then ret (new_stt sr)
  else print "Error loading model: ..." ;;
       print "Please ensure you have downloaded the Vosk model." ;;
       sys_exit 1.

Definition start_M (o : stt) : M stt :=
  let (o', evs) := start_obj o in emit evs ;; ret o'.
Definition stop_M (o : stt) : M stt :=
  let (o', evs) := stop o in emit evs ;; ret o'.

(** [while True: try: sys.stdin.readline() except KeyboardInterrupt: break]:
    the loop only ends on the operator's interrupt. *)
Definition stdin_loop : M unit :=
  try_except (raise KeyboardInterrupt)
    (fun e => match e with KeyboardInterrupt => Some (ret tt) | _ => None end).

(** Lines 127-148 of [main()], once [parse_args] has returned [sr]. *)
Definition main (model_ok : bool) (sr : Z) : M unit :=
  print "Starting Real-time Speech-to-Text System..." ;;
  print "Make sure you have downloaded the Vosk model from https://alphacephei.com/vosk/models" ;;
  print "Press Ctrl+C to exit" ;;
  try_finally
    (try_except
       (o <- RealtimeSTT_init model_ok sr ;; set_local o ;;
        o' <- start_M o ;; set_local o' ;;
        stdin_loop)
       (fun e => match e with
                 | KeyboardInterrupt => Some (print "
Stopping...")
                 | _ => None
                 end))
    (lo <- get_local ;;
     (match lo with Some o => o' <- stop_M o ;; set_local o' | None => ret tt end) ;;
     sys_exit 0).

(** The exit status of the process: an uncaught [SystemExit(c)] exits with
    [c], any other uncaught exception with 1. *)
Definition exit_code (r : unit + exn) : Z :=
  match r with
  | inl _ => 0
  | inr (SystemExit c) => c
  | inr _ => 1
  end.

Definition run_main (model_ok : bool) (sr : Z) : (unit + exn) * world :=
  main model_ok sr (mkWorld [] None).

(** What [parser.parse_args()] makes of the command line: the parsed
    [--sample-rate] (the model path only matters through [model_ok]), a
    request for [-h]/[--help], or arguments it rejects (an unknown option,
    or a [--sample-rate] that is not an integer). *)
Inductive args_outcome := ArgsParsed (sr : Z) | ArgsHelp | ArgsInvalid.

(** [args = parser.parse_args()], before [main]'s [try]: [--help] prints the
    help on stdout and exits with status 0; rejected arguments exit with
    status 2 after the usage and the error on stderr, which the trace does
    not record. *)
Definition parse_args (a : args_outcome) : M Z :=
  match a with
  | ArgsParsed sr => ret sr
  | ArgsHelp =>
      print "usage: realtime_stt.py [-h] [--model MODEL] [--sample-rate SAMPLE_RATE]" ;;
      sys_exit 0
  | ArgsInvalid => sys_exit 2
  end.

(** The whole of [main()]: argument parsing (lines 119-125), then [main]
    above (lines 127-148) with the parsed sample rate. *)
Definition main_cli (a : args_outcome) (model_ok : bool) : M unit :=
  sr <- parse_args a ;; main model_ok sr.

Definition run_main_cli (a : args_outcome) (model_ok : bool) : (unit + exn) * world :=
  main_cli a model_ok (mkWorld [] None).

End Pipeline.

(** ** Observations on traces and thread lists *)

Definition ev_accept (e : event) : list bytes :=
  match e with EAccept b => [b] | _ => [] end.
Definition ev_put_audio (e : event) : list bytes :=
  match e with EPutAudio b => [b] | _ => [] end.
Definition ev_result_put (e : event) : list string :=
  match e with EResultPut t => [t] | _ => [] end.
Definition ev_callback (e : event) : list string :=
  match e with ECallback t => [t] | _ => [] end.
Definition ev_close (e : event) : list unit :=
  match e with EStreamClose => [tt] | _ => [] end.

(** The blocks given to [AcceptWaveform], the blocks the capture stage put
    on the audio queue, the texts put on the result queue, the texts the
    callback was invoked with, and the [stream.close()] calls, in order. *)
Definition accepts (tr : list event) := flat_map ev_accept tr.
Definition puts_audio (tr : list event) := flat_map ev_put_audio tr.
Definition result_puts (tr : list event) := flat_map ev_result_put tr.
Definition callbacks (tr : list event) := flat_map ev_callback tr.
Definition closes (tr : list event) := flat_map ev_close tr.

Definition is_device_event (e : event) : bool :=
  match e with
  | EOpen _ _ _ _ _ | EStreamStart | EStreamStop | EStreamClose => true
  | _ => false
  end.

(** The item a worker holds between its [get] and the end of the loop body. *)
Definition held_block (th : wkind * tstate) : list bytes :=
  match th with (ProcessAudio, THoldBlock b) => [b] | _ => [] end.
Definition held_text (th : wkind * tstate) : list string :=
  match th with (OutputProcessor, THoldText t) => [t] | _ => [] end.
Definition held_blocks (ths : list (wkind * tstate)) := flat_map held_block ths.
Definition held_texts (ths : list (wkind * tstate)) := flat_map held_text ths.

Definition wkind_eqb (a b : wkind) : bool :=
  match a, b with
  | ProcessAudio, ProcessAudio | OutputProcessor, OutputProcessor => true
  | _, _ => false
  end.

Definition count_kind (k : wkind) (ths : list (wkind * tstate)) : nat :=
  length (filter (fun th => wkind_eqb (fst th) k) ths).

Definition is_start (a : action) : bool :=
  match a with AStart => true | _ => false end.

Definition count_start (sched : list action) : nat := length (filter is_start sched).

Definition nonblank (t : string) : Prop := str_truthy (strip t) = true.


(** Every text put on the result queue is non-blank, and every text queued,
    held or passed to the callback was put on the result queue. *)
Definition text_inv {RS CB} (c : @cfg RS CB) : Prop :=
  Forall nonblank (result_puts (trace c)) /\
  incl (result_queue (obj c) ++ held_texts (threads c) ++ callbacks (trace c))
       (result_puts (trace c)).

(** ** Concrete collaborators

    A recognizer whose state counts the [AcceptWaveform] calls: the third
    call raises, the second and fourth reach an utterance boundary; its
    [Result] gives [" hello world "] after the second call and a blank text
    otherwise. A callback that raises on its first call. *)
Definition demo_accept (n : nat) (b : bytes) : nat * option bool :=
  (S n, if Nat.eqb n 2 then None else Some (orb (Nat.eqb n 1) (Nat.eqb n 3))).
Definition demo_result (n : nat) : nat * option (option string) :=
  (n, Some (Some (if Nat.eqb n 2 then " hello world " else "  "))).
Definition demo_callback (c : nat) (t : string) : nat * bool := (S c, Nat.eqb c 0).

Definition demo_run (sched : list action) : cfg :=
  run demo_accept demo_result demo_callback (init_cfg (fun _ => 0%nat) 0%nat 16000)
      sched.

Definition blk (n : Byte.byte) : bytes := [n].

(** A started object whose recognizer has seen [n] blocks. *)
Definition demo_obj (n : nat) : @stt nat nat := mkSTT 16000 8000 true [] [] None n 0.

(** A running system with two texts waiting for the dispatch worker. *)
Definition demo_results_cfg : @cfg nat nat :=
  mkCfg (mkSTT 16000 8000 true [] ["first"; "second"] None 0%nat 0%nat)
        [(OutputProcessor, TTop)] [].

(** Start, capture five blocks; the third one makes the recognizer raise. *)
Definition five_blocks : list action :=
  [AStart; ADeliver (blk Byte.x01) 0; ADeliver (blk Byte.x02) 0;
   ADeliver (blk Byte.x03) 0; ADeliver (blk Byte.x04) 0; ADeliver (blk Byte.x05) 0].

(** Start, capture one block, stop, and let both workers see the flag. *)
Definition stop_with_leftover : list action :=
  [AStart; ADeliver (blk Byte.x01) 0; AStop; AStep 0; AStep 1].


(** [_default_callback(text)]: the callback installed when none is given;
    its state is the list of lines printed on stdout. *)
Definition _default_callback (out : list string) (text : string) : list string * bool :=
  if str_truthy (strip text) then (out ++ [String.append "Transcribed: " text], false) else (out, false).

(** The value of [self.running] after the lifecycle calls of [sched],
    starting from [cur]. *)
Fixpoint last_flag (sched : list action) (cur : bool) : bool :=
  match sched with
  | [] => cur
  | AStart :: r => last_flag r true
  | AStop :: r => last_flag r false
  | _ :: r => last_flag r cur
  end.

(** Every block held or queued, and every block given to [AcceptWaveform],
    was enqueued by the capture stage. *)
Definition blk_inv {RS CB} (c : @cfg RS CB) : Prop :=
  incl (audio_queue (obj c) ++ held_blocks (threads c) ++ accepts (trace c))
       (puts_audio (trace c)).

(** ** Proofs *)

Section Proofs.

Context {RS : Type} {CB : Type}.
Variable AcceptWaveform : RS -> bytes -> RS * option bool.
Variable Result : RS -> RS * option (option string).
Variable callback : CB -> string -> CB * bool.

Local Abbreviation run := (run AcceptWaveform Result callback).
Local Abbreviation exec := (exec AcceptWaveform Result callback).

Lemma nth_error_upd_split {A} (l : list A) i x y :
  nth_error l i = Some x ->
  exists l1 l2, l = l1 ++ x :: l2 /\ upd l i y = l1 ++ y :: l2 /\ length l1 = i.
Proof.
  revert i; induction l as [|z l IH]; intros [|i] H; simpl in H; try discriminate.
  - injection H as ->. exists [], l. auto.
  - destruct (IH i H) as (l1 & l2 & E1 & E2 & E3).
    exists (z :: l1), l2. simpl. rewrite E2, E3, E1. auto.
Qed.

Lemma nth_error_upd_same {A} (l : list A) i x y :
  nth_error l i = Some x -> nth_error (upd l i y) i = Some y.
Proof.
  intros H. destruct (nth_error_upd_split l i x y H) as (l1 & l2 & _ & E & <-).
  rewrite E, nth_error_app2 by lia. rewrite Nat.sub_diag. reflexivity.
Qed.

Lemma process_block_shape (o o' : @stt RS CB) b evs :
  process_block AcceptWaveform Result o b = (o', evs) ->
  accepts evs = [b] /\ puts_audio evs = [] /\ callbacks evs = [] /\
  closes evs = [] /\
  result_queue o' = result_queue o ++ result_puts evs /\
  Forall nonblank (result_puts evs) /\
  audio_queue o' = audio_queue o /\ running o' = running o /\
  stream o' = stream o /\ sample_rate o' = sample_rate o /\
  block_size o' = block_size o.
Proof.
  unfold process_block.
  destruct (AcceptWaveform (recognizer o) b) as [r1 [[|]|]];
    [destruct (Result r1) as [r2 [txt|]];
     [destruct (str_truthy (strip _)) eqn:Hs|]|..];
    intros H; injection H as <- <-; simpl;
    rewrite ?app_nil_r; repeat split; auto.
Qed.

Lemma dispatch_text_shape (o o' : @stt RS CB) t evs :
  dispatch_text callback o t = (o', evs) ->
  callbacks evs = [t] /\ accepts evs = [] /\ puts_audio evs = [] /\
  result_puts evs = [] /\ closes evs = [] /\
  audio_queue o' = audio_queue o /\ result_queue o' = result_queue o /\
  running o' = running o /\ stream o' = stream o /\
  sample_rate o' = sample_rate o /\ block_size o' = block_size o.
Proof.
  unfold dispatch_text. destruct (callback (cb_state o) t) as [c [|]];
    intros H; injection H as <- <-; simpl; repeat split.
Qed.

Lemma audio_callback_shape (o o' : @stt RS CB) d st evs :
  _audio_callback o d st = (o', evs) ->
  puts_audio evs = (if running o then [d] else []) /\
  accepts evs = [] /\ callbacks evs = [] /\ result_puts evs = [] /\
  closes evs = [] /\
  audio_queue o' = audio_queue o ++ puts_audio evs /\
  result_queue o' = result_queue o /\ running o' = running o /\
  stream o' = stream o /\ sample_rate o' = sample_rate o /\
  block_size o' = block_size o.
Proof.
  unfold _audio_callback.
  destruct (negb (st =? 0)%Z), (running o) eqn:Hr; intros H; injection H as <- <-;
    unfold puts_audio; simpl; rewrite ?app_nil_r; repeat split; auto.
Qed.

Lemma start_obj_shape (o o' : @stt RS CB) evs :
  start_obj o = (o', evs) ->
  puts_audio evs = [] /\ accepts evs = [] /\ callbacks evs = [] /\
  result_puts evs = [] /\ closes evs = [] /\
  audio_queue o' = audio_queue o /\ result_queue o' = result_queue o /\
  running o' = true /\ sample_rate o' = sample_rate o /\
  block_size o' = block_size o.
Proof. intros H; injection H as <- <-; repeat split. Qed.

Lemma stop_shape (o o' : @stt RS CB) evs :
  stop o = (o', evs) ->
  puts_audio evs = [] /\ accepts evs = [] /\ callbacks evs = [] /\
  result_puts evs = [] /\
  closes evs = (match stream o with Some _ => [tt] | None => [] end) /\
  audio_queue o' = audio_queue o /\ result_queue o' = result_queue o /\
  running o' = false /\ sample_rate o' = sample_rate o /\
  block_size o' = block_size o.
Proof.
  unfold stop; simpl. destruct (stream o); intros H; injection H as <- <-; repeat split.
Qed.

Lemma proj_app_accepts l1 l2 : accepts (l1 ++ l2) = accepts l1 ++ accepts l2.
Proof. apply flat_map_app. Qed.
Lemma proj_app_puts_audio l1 l2 : puts_audio (l1 ++ l2) = puts_audio l1 ++ puts_audio l2.
Proof. apply flat_map_app. Qed.
Lemma proj_app_result_puts l1 l2 : result_puts (l1 ++ l2) = result_puts l1 ++ result_puts l2.
Proof. apply flat_map_app. Qed.
Lemma proj_app_callbacks l1 l2 : callbacks (l1 ++ l2) = callbacks l1 ++ callbacks l2.
Proof. apply flat_map_app. Qed.
Lemma proj_app_closes l1 l2 : closes (l1 ++ l2) = closes l1 ++ closes l2.
Proof. apply flat_map_app. Qed.
Lemma proj_app_held_blocks l1 l2 : held_blocks (l1 ++ l2) = held_blocks l1 ++ held_blocks l2.
Proof. apply flat_map_app. Qed.
Lemma proj_app_held_texts l1 l2 : held_texts (l1 ++ l2) = held_texts l1 ++ held_texts l2.
Proof. apply flat_map_app. Qed.
Lemma count_kind_app k l1 l2 : count_kind k (l1 ++ l2) = count_kind k l1 + count_kind k l2.
Proof. unfold count_kind. rewrite filter_app, length_app. reflexivity. Qed.


Create Rewrite HintDb proj.
#[local] Hint Rewrite proj_app_accepts proj_app_puts_audio proj_app_result_puts
  proj_app_callbacks proj_app_closes proj_app_held_blocks proj_app_held_texts
  count_kind_app : proj.



(** The six ways a worker step can go. *)
Lemma cfg_step_cases (c : @cfg RS CB) i :
  cfg_step AcceptWaveform Result callback c i = c \/
  (exists k, nth_error (threads c) i = Some (k, TTop) /\ running (obj c) = false /\
     cfg_step AcceptWaveform Result callback c i = mkCfg (obj c) (upd (threads c) i (k, TExited)) (trace c)) \/
  (exists b q, nth_error (threads c) i = Some (ProcessAudio, TTop) /\
     running (obj c) = true /\ audio_queue (obj c) = b :: q /\
     cfg_step AcceptWaveform Result callback c i = mkCfg (set_audio_queue (obj c) q)
                          (upd (threads c) i (ProcessAudio, THoldBlock b)) (trace c)) \/
  (exists t q, nth_error (threads c) i = Some (OutputProcessor, TTop) /\
     running (obj c) = true /\ result_queue (obj c) = t :: q /\
     cfg_step AcceptWaveform Result callback c i = mkCfg (set_result_queue (obj c) q)
                          (upd (threads c) i (OutputProcessor, THoldText t)) (trace c)) \/
  (exists b o' evs, nth_error (threads c) i = Some (ProcessAudio, THoldBlock b) /\
     process_block AcceptWaveform Result (obj c) b = (o', evs) /\
     cfg_step AcceptWaveform Result callback c i = mkCfg o' (upd (threads c) i (ProcessAudio, TTop)) (trace c ++ evs)) \/
  (exists t o' evs, nth_error (threads c) i = Some (OutputProcessor, THoldText t) /\
     dispatch_text callback (obj c) t = (o', evs) /\
     cfg_step AcceptWaveform Result callback c i = mkCfg o' (upd (threads c) i (OutputProcessor, TTop)) (trace c ++ evs)).
Proof.
  unfold cfg_step.
  destruct (nth_error (threads c) i) as [[k s]|] eqn:Hn; [|left; reflexivity].
  destruct k, s as [|b|t|]; try (left; reflexivity).
  - destruct (running (obj c)) eqn:Hr.
    + destruct (audio_queue (obj c)) as [|b q] eqn:Hq; [left; reflexivity|].
      do 2 right; left. exists b, q. auto.
    + right; left. exists ProcessAudio. auto.
  - destruct (process_block AcceptWaveform Result (obj c) b) as [o' evs] eqn:Hp.
    do 4 right; left. exists b, o', evs. auto.
  - destruct (running (obj c)) eqn:Hr.
    + destruct (result_queue (obj c)) as [|t q] eqn:Hq; [left; reflexivity|].
      do 3 right; left. exists t, q. auto.
    + right; left. exists OutputProcessor. auto.
  - destruct (dispatch_text callback (obj c) t) as [o' evs] eqn:Hp.
    do 5 right. exists t, o', evs. auto.
Qed.

Lemma flat_map_upd {A B} (f : A -> list B) l i x y :
  nth_error l i = Some x ->
  exists l1 l2, l = l1 ++ x :: l2 /\ upd l i y = l1 ++ y :: l2 /\
    flat_map f l = flat_map f l1 ++ f x ++ flat_map f l2 /\
    flat_map f (upd l i y) = flat_map f l1 ++ f y ++ flat_map f l2.
Proof.
  intros H. destruct (nth_error_upd_split l i x y H) as (l1 & l2 & E1 & E2 & _).
  exists l1, l2. rewrite E2, E1, !flat_map_app. simpl. auto.
Qed.

Lemma count_kind_upd k l i x y :
  nth_error l i = Some x -> fst y = fst x ->
  count_kind k (upd l i y) = count_kind k l.
Proof.
  intros H Hf. destruct (nth_error_upd_split l i x y H) as (l1 & l2 & E1 & E2 & _).
  rewrite E2, E1, !count_kind_app. unfold count_kind; simpl. rewrite Hf.
  destruct (wkind_eqb (fst x) k); reflexivity.
Qed.

Ltac norm_lists :=
  repeat (rewrite ?app_nil_r, ?app_nil_l, <- ?app_assoc in * ); simpl in *.

Lemma exec_count (c : @cfg RS CB) a k :
  count_kind k (threads (exec c a)) =
  count_kind k (threads c) + (if is_start a then 1 else 0).
Proof.
  destruct a as [| |d st|i]; simpl.
  - unfold cfg_start. destruct (start_obj (obj c)); simpl.
    rewrite count_kind_app. destruct k; reflexivity.
  - unfold cfg_stop. destruct (stop (obj c)); simpl. lia.
  - unfold cfg_deliver. destruct (stream (obj c)) as [s|]; [|lia].
    destruct (s_active s); [|lia]. destruct (_audio_callback _ _ _); simpl; lia.
  - destruct (cfg_step_cases c i) as
      [E|[(k' & Hn & _ & E)|[(b & q & Hn & _ & _ & E)|[(t & q & Hn & _ & _ & E)|
       [(b & o' & evs & Hn & _ & E)|(t & o' & evs & Hn & _ & E)]]]]];
      rewrite E; simpl; try lia; (erewrite count_kind_upd; [lia|exact Hn|reflexivity]).
Qed.



Ltac incl_tac H :=
  let x := fresh "x" in
  let Hx := fresh "Hx" in
  intros x Hx; specialize (H x);
  repeat first [ setoid_rewrite in_app_iff in H | setoid_rewrite in_app_iff in Hx
               | setoid_rewrite in_app_iff | progress simpl in H, Hx |- * ];
  tauto.

Lemma text_inv_exec (c : @cfg RS CB) a : text_inv c -> text_inv (exec c a).
Proof.
  intros [H1 H2]. destruct a as [| |d st|i]; simpl.
  - unfold cfg_start. destruct (start_obj (obj c)) as [o' evs] eqn:Hs.
    apply start_obj_shape in Hs as (P & A & Cb & R & _ & Q1 & Q2 & _).
    unfold text_inv; simpl. autorewrite with proj. rewrite Cb, R, Q2.
    norm_lists. split; [assumption|incl_tac H2].
  - unfold cfg_stop. destruct (stop (obj c)) as [o' evs] eqn:Hs.
    apply stop_shape in Hs as (P & A & Cb & R & _ & Q1 & Q2 & _).
    unfold text_inv; simpl. autorewrite with proj. rewrite Cb, R, Q2.
    norm_lists. split; assumption.
  - unfold cfg_deliver. destruct (stream (obj c)) as [s|]; [|split; assumption].
    destruct (s_active s); [|split; assumption].
    destruct (_audio_callback (obj c) d st) as [o' evs] eqn:Hs.
    apply audio_callback_shape in Hs as (_ & A & Cb & R & _ & Q1 & Q2 & _).
    unfold text_inv; simpl. autorewrite with proj. rewrite Cb, R, Q2.
    norm_lists. split; assumption.
  - destruct (cfg_step_cases c i) as
      [E|[(k & Hn & _ & E)|[(b & q & Hn & _ & Hq & E)|[(t & q & Hn & _ & Hq & E)|
       [(b & o' & evs & Hn & Hp & E)|(t & o' & evs & Hn & Hp & E)]]]]];
      rewrite E; [split; assumption|..]; unfold text_inv; simpl.
    + destruct (flat_map_upd held_text _ _ _ (k, TExited) Hn) as (m1 & m2 & _ & _ & G1 & G2).
      unfold held_texts in *. rewrite G2. rewrite G1 in H2.
      destruct k; simpl in *; split; assumption.
    + destruct (flat_map_upd held_text _ _ _ (ProcessAudio, THoldBlock b) Hn)
        as (m1 & m2 & _ & _ & G1 & G2).
      unfold held_texts in *. rewrite G2. rewrite G1 in H2. simpl in *.
      split; assumption.
    + destruct (flat_map_upd held_text _ _ _ (OutputProcessor, THoldText t) Hn)
        as (m1 & m2 & _ & _ & G1 & G2).
      unfold held_texts in *. rewrite G2. rewrite G1, Hq in H2. simpl in *.
      split; [assumption|incl_tac H2].
    + apply process_block_shape in Hp as (A & P & Cb & _ & Q2 & F & Q1 & _).
      destruct (flat_map_upd held_text _ _ _ (ProcessAudio, TTop) Hn)
        as (m1 & m2 & _ & _ & G1 & G2).
      autorewrite with proj. rewrite Cb, Q2.
      unfold held_texts in *. rewrite G2. rewrite G1 in H2. simpl in *.
      split; [apply Forall_app; split; assumption|].
      norm_lists. incl_tac H2.
    + apply dispatch_text_shape in Hp as (Cb & A & P & R & _ & Q1 & Q2 & _).
      destruct (flat_map_upd held_text _ _ _ (OutputProcessor, TTop) Hn)
        as (m1 & m2 & _ & _ & G1 & G2).
      autorewrite with proj. rewrite Cb, R, Q2.
      unfold held_texts in *. rewrite G2. rewrite G1 in H2. simpl in *.
      norm_lists. split; [assumption|incl_tac H2].
Qed.

Lemma text_inv_run sched : forall (c : @cfg RS CB),
  text_inv c -> text_inv (run c sched).
Proof.
  induction sched as [|a r IH]; intros c H; [exact H|].
  simpl. apply IH, text_inv_exec, H.
Qed.

Lemma in_callbacks e tr : In (ECallback e) tr <-> In e (callbacks tr).
Proof.
  unfold callbacks. rewrite in_flat_map. split.
  - intros H. exists (ECallback e). simpl; auto.
  - intros (x & Hx & Hin). destruct x; simpl in Hin; try contradiction.
    destruct Hin as [<-|[]]. exact Hx.
Qed.

Lemma in_result_puts e tr : In (EResultPut e) tr <-> In e (result_puts tr).
Proof.
  unfold result_puts. rewrite in_flat_map. split.
  - intros H. exists (EResultPut e). simpl; auto.
  - intros (x & Hx & Hin). destruct x; simpl in Hin; try contradiction.
    destruct Hin as [<-|[]]. exact Hx.
Qed.

Lemma run_cons2 (c : @cfg RS CB) a b r : run c (a :: b :: r) = run (exec (exec c a) b) r.
Proof. reflexivity. Qed.

Lemma repeat_two {A} (x : A) n : repeat x (2 * S n) = x :: x :: repeat x (2 * n).
Proof. replace (2 * S n) with (S (S (2 * n))) by lia. reflexivity. Qed.

(** The recognition worker, left alone with a running system, empties the
    audio queue, whatever the recognizer does with each block. *)
Lemma drain_audio bs : forall (c : @cfg RS CB) i,
  running (obj c) = true ->
  nth_error (threads c) i = Some (ProcessAudio, TTop) ->
  audio_queue (obj c) = bs ->
  let c' := run c (repeat (AStep i) (2 * length bs)) in
  accepts (trace c') = accepts (trace c) ++ bs /\ audio_queue (obj c') = [] /\
  nth_error (threads c') i = Some (ProcessAudio, TTop) /\ running (obj c') = true.
Proof.
  induction bs as [|b bs IH]; intros c i Hr Hn Hq; cbv zeta.
  - simpl. rewrite app_nil_r. auto.
  - simpl length. rewrite repeat_two, run_cons2.
    assert (S1 : exec c (AStep i) =
                 mkCfg (set_audio_queue (obj c) bs)
                       (upd (threads c) i (ProcessAudio, THoldBlock b)) (trace c)).
    { simpl. unfold cfg_step. rewrite Hn, Hr, Hq. reflexivity. }
    rewrite S1.
    destruct (process_block AcceptWaveform Result (set_audio_queue (obj c) bs) b) as [o' evs] eqn:Hp.
    assert (S2 : exec (mkCfg (set_audio_queue (obj c) bs)
                        (upd (threads c) i (ProcessAudio, THoldBlock b)) (trace c))
                      (AStep i) =
                 mkCfg o' (upd (upd (threads c) i (ProcessAudio, THoldBlock b)) i
                                 (ProcessAudio, TTop)) (trace c ++ evs)).
    { simpl. unfold cfg_step. simpl.
      erewrite nth_error_upd_same by exact Hn. simpl in Hp. rewrite Hp. reflexivity. }
    rewrite S2.
    apply process_block_shape in Hp as (A & _ & _ & _ & _ & _ & Q1 & R & _).
    simpl in Q1, R.
    edestruct (IH (mkCfg o' (upd (upd (threads c) i (ProcessAudio, THoldBlock b)) i
                                 (ProcessAudio, TTop)) (trace c ++ evs)) i)
      as (IA & IQ & IN & IR); simpl.
    + exact (eq_trans R Hr).
    + erewrite nth_error_upd_same; [reflexivity|]. erewrite nth_error_upd_same; eauto.
    + exact Q1.
    + simpl in IA. rewrite IA, proj_app_accepts, A, <- app_assoc. auto.
Qed.

(** The dispatch worker, left alone with a running system, empties the
    result queue, whatever the callback does with each text. *)
Lemma drain_results ts : forall (c : @cfg RS CB) i,
  running (obj c) = true ->
  nth_error (threads c) i = Some (OutputProcessor, TTop) ->
  result_queue (obj c) = ts ->
  let c' := run c (repeat (AStep i) (2 * length ts)) in
  callbacks (trace c') = callbacks (trace c) ++ ts /\ result_queue (obj c') = [] /\
  nth_error (threads c') i = Some (OutputProcessor, TTop) /\ running (obj c') = true.
Proof.
  induction ts as [|t ts IH]; intros c i Hr Hn Hq; cbv zeta.
  - simpl. rewrite app_nil_r. auto.
  - simpl length. rewrite repeat_two, run_cons2.
    assert (S1 : exec c (AStep i) =
                 mkCfg (set_result_queue (obj c) ts)
                       (upd (threads c) i (OutputProcessor, THoldText t)) (trace c)).
    { simpl. unfold cfg_step. rewrite Hn, Hr, Hq. reflexivity. }
    rewrite S1.
    destruct (dispatch_text callback (set_result_queue (obj c) ts) t) as [o' evs] eqn:Hp.
    assert (S2 : exec (mkCfg (set_result_queue (obj c) ts)
                        (upd (threads c) i (OutputProcessor, THoldText t)) (trace c))
                      (AStep i) =
                 mkCfg o' (upd (upd (threads c) i (OutputProcessor, THoldText t)) i
                                 (OutputProcessor, TTop)) (trace c ++ evs)).
    { simpl. unfold cfg_step. simpl.
      erewrite nth_error_upd_same by exact Hn. simpl in Hp. rewrite Hp. reflexivity. }
    rewrite S2.
    apply dispatch_text_shape in Hp as (Cb & _ & _ & _ & _ & _ & Q2 & R & _).
    simpl in Q2, R.
    edestruct (IH (mkCfg o' (upd (upd (threads c) i (OutputProcessor, THoldText t)) i
                                 (OutputProcessor, TTop)) (trace c ++ evs)) i)
      as (IA & IQ & IN & IR); simpl.
    + exact (eq_trans R Hr).
    + erewrite nth_error_upd_same; [reflexivity|]. erewrite nth_error_upd_same; eauto.
    + exact Q2.
    + simpl in IA. rewrite IA, proj_app_callbacks, Cb, <- app_assoc. auto.
Qed.

Lemma Forall_nth_error {A} (P : A -> Prop) l i x :
  Forall P l -> nth_error l i = Some x -> P x.
Proof.
  intros H Hn. rewrite Forall_forall in H. apply H. eapply nth_error_In; eauto.
Qed.

(** With the flag down and every worker gone, only [start()] can make the
    pipeline do anything again. *)
Lemma quiescent_exec (c : @cfg RS CB) a :
  running (obj c) = false ->
  Forall (fun th => snd th = TExited) (threads c) ->
  is_start a = false ->
  let c' := exec c a in
  accepts (trace c') = accepts (trace c) /\ callbacks (trace c') = callbacks (trace c) /\
  audio_queue (obj c') = audio_queue (obj c) /\
  result_queue (obj c') = result_queue (obj c) /\
  running (obj c') = false /\ Forall (fun th => snd th = TExited) (threads c').
Proof.
  intros Hr HF Ha. destruct a as [| |d st|i]; [discriminate|..]; cbv zeta; simpl.
  - unfold cfg_stop. destruct (stop (obj c)) as [o' evs] eqn:Hs.
    apply stop_shape in Hs as (P & A & Cb & R & _ & Q1 & Q2 & Rn & _).
    simpl. autorewrite with proj. rewrite A, Cb, Q1, Q2, Rn, !app_nil_r. repeat split; auto.
  - unfold cfg_deliver. destruct (stream (obj c)) as [s|]; [|repeat split; auto].
    destruct (s_active s); [|repeat split; auto].
    destruct (_audio_callback (obj c) d st) as [o' evs] eqn:Hs.
    apply audio_callback_shape in Hs as (P & A & Cb & R & _ & Q1 & Q2 & Rn & _).
    simpl. autorewrite with proj. rewrite A, Cb, Q1, Q2, Rn, P, Hr, !app_nil_r. repeat split; auto.
  - destruct (cfg_step_cases c i) as
      [E|[(k & Hn & _ & E)|[(b & q & Hn & _ & Hq & E)|[(t & q & Hn & _ & Hq & E)|
       [(b & o' & evs & Hn & Hp & E)|(t & o' & evs & Hn & Hp & E)]]]]];
      rewrite E; [repeat split; auto|..];
      apply (Forall_nth_error _ _ _ _ HF) in Hn; discriminate.
Qed.

Lemma quiescent_run sched : forall (c : @cfg RS CB),
  running (obj c) = false ->
  Forall (fun th => snd th = TExited) (threads c) ->
  forallb (fun a => negb (is_start a)) sched = true ->
  let c' := run c sched in
  accepts (trace c') = accepts (trace c) /\ callbacks (trace c') = callbacks (trace c) /\
  audio_queue (obj c') = audio_queue (obj c) /\
  result_queue (obj c') = result_queue (obj c).
Proof.
  induction sched as [|a r IH]; intros c Hr HF Hs; cbv zeta; [repeat split; auto|].
  simpl in Hs. apply andb_prop in Hs as [Ha Hs]. apply negb_true_iff in Ha.
  destruct (quiescent_exec c a Hr HF Ha) as (A & Cb & Q1 & Q2 & Rn & F).
  simpl. destruct (IH (exec c a) Rn F Hs) as (A' & Cb' & Q1' & Q2').
  rewrite A', Cb', Q1', Q2', A, Cb, Q1, Q2. repeat split; auto.
Qed.

Lemma exec_sizes (c : @cfg RS CB) a :
  sample_rate (obj (exec c a)) = sample_rate (obj c) /\
  block_size (obj (exec c a)) = block_size (obj c).
Proof.
  destruct a as [| |d st|i]; simpl.
  - unfold cfg_start. destruct (start_obj (obj c)) as [o' evs] eqn:Hs.
    apply start_obj_shape in Hs. simpl. tauto.
  - unfold cfg_stop. destruct (stop (obj c)) as [o' evs] eqn:Hs.
    apply stop_shape in Hs. simpl. tauto.
  - unfold cfg_deliver. destruct (stream (obj c)) as [s|]; [|auto].
    destruct (s_active s); [|auto].
    destruct (_audio_callback (obj c) d st) as [o' evs] eqn:Hs.
    apply audio_callback_shape in Hs. simpl. tauto.
  - destruct (cfg_step_cases c i) as
      [E|[(k & Hn & _ & E)|[(b & q & Hn & _ & Hq & E)|[(t & q & Hn & _ & Hq & E)|
       [(b & o' & evs & Hn & Hp & E)|(t & o' & evs & Hn & Hp & E)]]]]];
      rewrite E; simpl; auto.
    + apply process_block_shape in Hp. tauto.
    + apply dispatch_text_shape in Hp. tauto.
Qed.

Lemma run_sizes sched : forall (c : @cfg RS CB),
  sample_rate (obj (run c sched)) = sample_rate (obj c) /\
  block_size (obj (run c sched)) = block_size (obj c).
Proof.
  induction sched as [|a r IH]; intros c; [auto|]. simpl.
  destruct (IH (exec c a)) as [-> ->]. apply exec_sizes.
Qed.

End Proofs.

(** ** The claims *)

Section Claims.

Context {RS : Type} {CB : Type}.
Variable new_recognizer : Z -> RS.
Variable AcceptWaveform : RS -> bytes -> RS * option bool.
Variable Result : RS -> RS * option (option string).
Variable cb_init : CB.
Variable callback : CB -> string -> CB * bool.

Local Abbreviation run := (run AcceptWaveform Result callback).
Local Abbreviation init_cfg := (init_cfg new_recognizer cb_init).

Lemma text_inv_reachable sr sched : text_inv (run (init_cfg sr) sched).
Proof.
  apply text_inv_run. split; [constructor|]. intros x Hx. simpl in Hx. contradiction.
Qed.

(** C1: at an utterance boundary the recognition stage puts the result's
    text on the result queue exactly when [text.strip()] is non-empty; so
    no blank text is ever on the result queue nor given to the callback. *)
Theorem C1_blank_results_filtered :
  (forall (o : @stt RS CB) b r1 r2 txt,
     AcceptWaveform (recognizer o) b = (r1, Some true) ->
     Result r1 = (r2, Some (Some txt)) ->
     result_queue (fst (process_block AcceptWaveform Result o b)) =
       result_queue o ++ (if str_truthy (strip txt) then [txt] else [])) /\
  (forall sr sched t,
     (In t (result_queue (obj (run (init_cfg sr) sched))) -> nonblank t) /\
     (In (ECallback t) (trace (run (init_cfg sr) sched)) -> nonblank t)).
Proof.
  split.
  - intros o b r1 r2 txt H1 H2. unfold process_block.
    rewrite H1. simpl. rewrite H2. simpl.
    destruct (str_truthy (strip txt)); simpl; rewrite ?app_nil_r; reflexivity.
  - intros sr sched t. destruct (text_inv_reachable sr sched) as [HF Hi].
    rewrite Forall_forall in HF. split; intros H; apply HF, Hi.
    + apply in_app_iff; left; exact H.
    + apply in_callbacks in H. rewrite !in_app_iff. auto.
Qed.


(** C3: a block on which [AcceptWaveform] raises is logged and the worker
    goes back to its loop; and a running recognition worker feeds every
    queued block, in order, to [AcceptWaveform] whatever happens on each of
    them, and is still looping afterwards. *)
Theorem C3_recognition_error_isolation :
  (forall (o : @stt RS CB) b r1,
     AcceptWaveform (recognizer o) b = (r1, None) ->
     snd (process_block AcceptWaveform Result o b) = [EAccept b; EError "Error processing audio"] /\
     running (fst (process_block AcceptWaveform Result o b)) = running o) /\
  (forall (c : @cfg RS CB) i,
     running (obj c) = true ->
     nth_error (threads c) i = Some (ProcessAudio, TTop) ->
     accepts (trace (run c (repeat (AStep i) (2 * length (audio_queue (obj c))))))
       = accepts (trace c) ++ audio_queue (obj c) /\
     audio_queue (obj (run c (repeat (AStep i) (2 * length (audio_queue (obj c))))))
       = [] /\
     nth_error (threads (run c (repeat (AStep i) (2 * length (audio_queue (obj c))))))
       i = Some (ProcessAudio, TTop)).
Proof.
  split.
  - intros o b r1 H. unfold process_block. rewrite H. auto.
  - intros c i Hr Hn.
    destruct (drain_audio AcceptWaveform Result callback (audio_queue (obj c)) c i
                Hr Hn eq_refl) as (A & Q & N & _).
    auto.
Qed.

(** C4: a text on which the callback raises is logged and the worker goes
    back to its loop; and a running dispatch worker gives every queued text,
    in order, to the callback whatever the callback does with each, and is
    still looping afterwards. *)
Theorem C4_callback_error_isolation :
  (forall (o : @stt RS CB) t c',
     callback (cb_state o) t = (c', true) ->
     snd (dispatch_text callback o t) = [ECallback t; EError "Error in output processor"] /\
     running (fst (dispatch_text callback o t)) = running o) /\
  (forall (c : @cfg RS CB) i,
     running (obj c) = true ->
     nth_error (threads c) i = Some (OutputProcessor, TTop) ->
     callbacks (trace (run c (repeat (AStep i) (2 * length (result_queue (obj c))))))
       = callbacks (trace c) ++ result_queue (obj c) /\
     result_queue (obj (run c (repeat (AStep i) (2 * length (result_queue (obj c))))))
       = [] /\
     nth_error (threads (run c (repeat (AStep i) (2 * length (result_queue (obj c))))))
       i = Some (OutputProcessor, TTop)).
Proof.
  split.
  - intros o t c' H. unfold dispatch_text. rewrite H. auto.
  - intros c i Hr Hn.
    destruct (drain_results AcceptWaveform Result callback (result_queue (obj c)) c i
                Hr Hn eq_refl) as (A & Q & N & _).
    auto.
Qed.


(** C6 (amended): [stop()] on an object that was never started only clears
    the flag and logs; once [start()] has created the stream, every
    [stop()] call, a repeated one included, clears the flag, calls
    [stream.stop()] and [stream.close()] again, logs, and leaves the
    [stream] attribute in place. *)
Theorem C6_stop_repeats_release :
  (forall o : @stt RS CB, stream o = None ->
     stop o = (set_running o false,
               [ESetRunning false; EInfo "Real-time STT system stopped"])) /\
  (forall (o : @stt RS CB) s, stream o = Some s ->
     stop o = (set_stream (set_running o false)
                 (Some (mkStream (s_samplerate s) (s_blocksize s) (s_dtype s)
                                 (s_channels s) (s_callback s) false true)),
               [ESetRunning false; EStreamStop; EStreamClose;
                EInfo "Real-time STT system stopped"]) /\
     running (fst (stop o)) = false /\
     closes (snd (stop o)) = [tt] /\ stream (fst (stop o)) <> None).
Proof.
  split.
  - intros o H. unfold stop. simpl. rewrite H. reflexivity.
  - intros o s H. unfold stop. simpl. rewrite H.
    split; [reflexivity|]. split; [reflexivity|]. split; [reflexivity|discriminate].
Qed.

(** C7: a block delivered by the device is enqueued exactly when the flag is
    up and dropped otherwise; a non-zero status is logged as a warning and
    the block is still enqueued; the handler never stops, closes or
    otherwise touches the device. *)
Theorem C7_capture_stage (c : @cfg RS CB) d st s :
  stream (obj c) = Some s -> s_active s = true ->
  audio_queue (obj (cfg_deliver c d st))
    = audio_queue (obj c) ++ (if running (obj c) then [d] else []) /\
  puts_audio (trace (cfg_deliver c d st))
    = puts_audio (trace c) ++ (if running (obj c) then [d] else []) /\
  stream (obj (cfg_deliver c d st)) = stream (obj c) /\
  running (obj (cfg_deliver c d st)) = running (obj c) /\
  threads (cfg_deliver c d st) = threads c /\
  ((st =? 0)%Z = false -> In (EWarning st) (trace (cfg_deliver c d st))) /\
  (forall e, In e (trace (cfg_deliver c d st)) ->
     In e (trace c) \/ is_device_event e = false).
Proof.
  intros H Ha. unfold cfg_deliver. rewrite H, Ha.
  unfold _audio_callback.
  destruct (st =? 0)%Z eqn:Hst, (running (obj c)) eqn:Hr; simpl;
    rewrite ?proj_app_puts_audio; simpl; rewrite ?app_nil_r;
    (repeat split; auto;
     [try (intros E; discriminate E)|..];
     try (intros _; apply in_app_iff; right; simpl; auto);
     intros e He; apply in_app_iff in He; destruct He as [He|He]; auto;
     right; simpl in He; repeat (destruct He as [<-|He]; [reflexivity|]);
     contradiction).
Qed.

(** C8 (amended): [start()] raises the flag, then opens the input stream
    with the object's sample rate and block size, int16, mono and
    [_audio_callback] as handler, starts it, and launches the two workers,
    returning before either has run; it leaves both queues as they are (they
    are created once, in [__init__]). The block size is 8000 frames and the
    sample rate the constructor's, whatever happened before. *)
Theorem C8_start_effects :
  (forall c : @cfg RS CB,
     cfg_start c =
     mkCfg (set_stream (set_running (obj c) true)
              (Some (mkStream (sample_rate (obj c)) (block_size (obj c)) Int16 1
                              AudioCallbackHandler true false)))
           (threads c ++ [(ProcessAudio, TTop); (OutputProcessor, TTop)])
           (trace c ++
            [ESetRunning true;
             EOpen (sample_rate (obj c)) (block_size (obj c)) Int16 1 AudioCallbackHandler;
             EStreamStart; EThreadStart ProcessAudio; EThreadStart OutputProcessor;
             EInfo "Real-time STT system started"])) /\
  (forall sr sched,
     sample_rate (obj (run (init_cfg sr) sched)) = sr /\
     block_size (obj (run (init_cfg sr) sched)) = 8000%Z).
Proof.
  split; [reflexivity|].
  intros sr sched. apply (run_sizes AcceptWaveform Result callback).
Qed.

(** C9: the text put on the result queue is the recognizer's [text] field
    itself, not its stripped form; the dispatch worker calls the callback
    with the very text it took from the queue; so every text the callback
    receives is one that the recognition stage put on the queue. *)
Theorem C9_callback_gets_raw_text :
  (forall (o : @stt RS CB) b r1 r2 txt,
     AcceptWaveform (recognizer o) b = (r1, Some true) ->
     Result r1 = (r2, Some (Some txt)) ->
     nonblank txt ->
     snd (process_block AcceptWaveform Result o b) = [EAccept b; EResultPut txt] /\
     result_queue (fst (process_block AcceptWaveform Result o b)) = result_queue o ++ [txt]) /\
  (forall (o : @stt RS CB) t,
     snd (dispatch_text callback o t)
       = ECallback t :: (if snd (callback (cb_state o) t)
                         then [EError "Error in output processor"] else []) /\
     cb_state (fst (dispatch_text callback o t)) = fst (callback (cb_state o) t)) /\
  (forall sr sched t,
     In (ECallback t) (trace (run (init_cfg sr) sched)) ->
     In (EResultPut t) (trace (run (init_cfg sr) sched))).
Proof.
  split; [|split].
  - intros o b r1 r2 txt H1 H2 H3. unfold process_block.
    rewrite H1. simpl. rewrite H2. simpl. unfold nonblank in H3. rewrite H3. auto.
  - intros o t. unfold dispatch_text.
    destruct (callback (cb_state o) t) as [c' r]. auto.
  - intros sr sched t H. destruct (text_inv_reachable sr sched) as [_ Hi].
    apply in_result_puts, Hi. apply in_callbacks in H. rewrite !in_app_iff. auto.
Qed.

(** C10 (amended): once the flag is down and every worker has seen it and
    finished, nothing that is not [start()] makes the pipeline call
    [AcceptWaveform] or the callback, and the leftover blocks and texts stay
    on their queues (for the workers of a later [start()]). *)
Theorem C10_quiet_until_restart (c : @cfg RS CB) sched :
  running (obj c) = false ->
  Forall (fun th => snd th = TExited) (threads c) ->
  forallb (fun a => negb (is_start a)) sched = true ->
  accepts (trace (run c sched)) = accepts (trace c) /\
  callbacks (trace (run c sched)) = callbacks (trace c) /\
  audio_queue (obj (run c sched)) = audio_queue (obj c) /\
  result_queue (obj (run c sched)) = result_queue (obj c).
Proof.
  intros Hr HF Hs. exact (quiescent_run AcceptWaveform Result callback sched c Hr HF Hs).
Qed.

End Claims.

(** ** Witnesses and counterexamples *)

Lemma C1_witness :
  demo_accept 1 (blk Byte.x02) = (2%nat, Some true) /\
  demo_result 2 = (2%nat, Some (Some " hello world ")) /\
  result_queue (fst (process_block demo_accept demo_result (demo_obj 1) (blk Byte.x02)))
    = [" hello world "].
Proof.
  split; [reflexivity|split; [reflexivity|]].
  exact (proj1 (C1_blank_results_filtered (fun _ => 0%nat) demo_accept demo_result
                  0%nat demo_callback)
               (demo_obj 1) (blk Byte.x02) 2%nat 2%nat " hello world " eq_refl eq_refl).
Defined.


Lemma C3_witness :
  snd (process_block demo_accept demo_result (demo_obj 2) (blk Byte.x03))
    = [EAccept (blk Byte.x03); EError "Error processing audio"] /\
  accepts (trace (run demo_accept demo_result demo_callback (demo_run five_blocks)
                      (repeat (AStep 0) 10)))
    = [blk Byte.x01; blk Byte.x02; blk Byte.x03; blk Byte.x04; blk Byte.x05].
Proof.
  split.
  - exact (proj1 (proj1 (C3_recognition_error_isolation demo_accept demo_result demo_callback)
                     (demo_obj 2) (blk Byte.x03) 3%nat eq_refl)).
  - exact (proj1 (proj2 (C3_recognition_error_isolation demo_accept demo_result demo_callback)
                     (demo_run five_blocks) 0 eq_refl eq_refl)).
Defined.

Lemma C4_witness :
  snd (dispatch_text demo_callback (demo_obj 0) "first")
    = [ECallback "first"; EError "Error in output processor"] /\
  callbacks (trace (run demo_accept demo_result demo_callback demo_results_cfg
                        (repeat (AStep 0) 4)))
    = ["first"; "second"].
Proof.
  split.
  - exact (proj1 (proj1 (C4_callback_error_isolation demo_accept demo_result demo_callback)
                     (demo_obj 0) "first" 1%nat eq_refl)).
  - exact (proj1 (proj2 (C4_callback_error_isolation demo_accept demo_result demo_callback)
                     demo_results_cfg 0 eq_refl eq_refl)).
Defined.



(** Start, stop, stop: [stream.close()] is called twice. *)
Lemma C6_counterexample :
  closes (trace (demo_run [AStart; AStop; AStop])) = [tt; tt].
Proof. reflexivity. Qed.

Lemma C6_witness :
  stream (demo_obj 0) = None /\
  stop (demo_obj 0) = (set_running (demo_obj 0) false,
                       [ESetRunning false; EInfo "Real-time STT system stopped"]) /\
  stream (obj (demo_run [AStart; AStop])) <> None /\
  closes (snd (stop (obj (demo_run [AStart; AStop])))) = [tt].
Proof.
  split; [reflexivity|split].
  - exact (proj1 C6_stop_repeats_release (demo_obj 0) eq_refl).
  - split; [discriminate|].
    exact (proj1 (proj2 (proj2 (proj2 C6_stop_repeats_release
                        (obj (demo_run [AStart; AStop]))
                        (mkStream 16000 8000 Int16 1 AudioCallbackHandler false true)
                        eq_refl)))).
Defined.

Lemma C7_witness :
  s_active (mkStream 16000 8000 Int16 1 AudioCallbackHandler true false) = true /\
  audio_queue (obj (cfg_deliver (demo_run [AStart]) (blk Byte.x01) 2))
    = [blk Byte.x01] /\
  In (EWarning 2) (trace (cfg_deliver (demo_run [AStart]) (blk Byte.x01) 2)).
Proof.
  split; [reflexivity|].
  destruct (C7_capture_stage (demo_run [AStart]) (blk Byte.x01) 2
              (mkStream 16000 8000 Int16 1 AudioCallbackHandler true false)
              eq_refl eq_refl) as (Q & _ & _ & _ & _ & W & _).
  split; [exact Q|]. exact (W eq_refl).
Defined.

(** After start, one block, stop and start again, the block captured before
    the stop is still on the same audio queue: [start()] does not construct
    the queues; and it raises the flag before it opens the device. *)
Lemma C8_counterexample :
  audio_queue (obj (demo_run [AStart; ADeliver (blk Byte.x01) 0; AStop; AStart]))
    = [blk Byte.x01] /\
  firstn 2 (trace (demo_run [AStart]))
    = [ESetRunning true; EOpen 16000 8000 Int16 1 AudioCallbackHandler].
Proof. split; reflexivity. Qed.

Lemma C9_witness :
  nonblank " hello world " /\
  snd (process_block demo_accept demo_result (demo_obj 1) (blk Byte.x02))
    = [EAccept (blk Byte.x02); EResultPut " hello world "] /\
  In (ECallback " hello world ")
     (trace (demo_run [AStart; ADeliver (blk Byte.x01) 0; ADeliver (blk Byte.x02) 0;
                       AStep 0; AStep 0; AStep 0; AStep 0; AStep 1; AStep 1])) /\
  In (EResultPut " hello world ")
     (trace (demo_run [AStart; ADeliver (blk Byte.x01) 0; ADeliver (blk Byte.x02) 0;
                       AStep 0; AStep 0; AStep 0; AStep 0; AStep 1; AStep 1])).
Proof.
  assert (Hn : nonblank " hello world ") by reflexivity.
  assert (Hc : In (ECallback " hello world ")
     (trace (demo_run [AStart; ADeliver (blk Byte.x01) 0; ADeliver (blk Byte.x02) 0;
                       AStep 0; AStep 0; AStep 0; AStep 0; AStep 1; AStep 1])))
    by (vm_compute; tauto).
  split; [exact Hn|split; [|split; [exact Hc|]]].
  - exact (proj1 (proj1 (C9_callback_gets_raw_text (fun _ => 0%nat) demo_accept demo_result
                           0%nat demo_callback)
                        (demo_obj 1) (blk Byte.x02) 2%nat 2%nat " hello world "
                        eq_refl eq_refl Hn)).
  - exact (proj2 (proj2 (C9_callback_gets_raw_text (fun _ => 0%nat) demo_accept demo_result
                           0%nat demo_callback))
                 16000%Z _ _ Hc).
Defined.

(** Both workers have seen the flag down and finished, one block is left on
    the queue, and [AcceptWaveform] has not been called; after a second
    [start()] the new recognition worker processes that block. *)
Lemma C10_counterexample :
  threads (demo_run stop_with_leftover) = [(ProcessAudio, TExited); (OutputProcessor, TExited)] /\
  running (obj (demo_run stop_with_leftover)) = false /\
  accepts (trace (demo_run stop_with_leftover)) = [] /\
  accepts (trace (demo_run (stop_with_leftover ++ [AStart; AStep 2; AStep 2])))
    = [blk Byte.x01].
Proof. repeat split; reflexivity. Qed.

Lemma C10_witness :
  running (obj (demo_run stop_with_leftover)) = false /\
  accepts (trace (run demo_accept demo_result demo_callback (demo_run stop_with_leftover)
                      [ADeliver (blk Byte.x02) 0; AStep 0; AStep 1; AStop]))
    = [] /\
  audio_queue (obj (run demo_accept demo_result demo_callback (demo_run stop_with_leftover)
                      [ADeliver (blk Byte.x02) 0; AStep 0; AStep 1; AStop]))
    = [blk Byte.x01].
Proof.
  split; [reflexivity|].
  destruct (C10_quiet_until_restart demo_accept demo_result demo_callback
              (demo_run stop_with_leftover) [ADeliver (blk Byte.x02) 0; AStep 0; AStep 1; AStop]
              eq_refl ltac:(vm_compute; repeat constructor) eq_refl)
    as (A & _ & Q & _).
  split; [exact A|exact Q].
Defined.

(** ** Further properties of the code *)

Section Extras.

#[local] Set Default Proof Using "Type".

Context {RS : Type} {CB : Type}.
Variable new_recognizer : Z -> RS.
Variable AcceptWaveform : RS -> bytes -> RS * option bool.
Variable Result : RS -> RS * option (option string).
Variable cb_init : CB.
Variable callback : CB -> string -> CB * bool.

Local Abbreviation run := (run AcceptWaveform Result callback).
Local Abbreviation exec := (exec AcceptWaveform Result callback).
Local Abbreviation init_cfg := (init_cfg new_recognizer cb_init).

Create Rewrite HintDb proj.
#[local] Hint Rewrite proj_app_accepts proj_app_puts_audio proj_app_result_puts
  proj_app_callbacks proj_app_closes proj_app_held_blocks proj_app_held_texts
  count_kind_app : proj.

Ltac norm_lists :=
  repeat (rewrite ?app_nil_r, ?app_nil_l, <- ?app_assoc in * ); simpl in *.

Ltac incl_tac H :=
  let x := fresh "x" in
  let Hx := fresh "Hx" in
  intros x Hx; specialize (H x);
  repeat first [ setoid_rewrite in_app_iff in H | setoid_rewrite in_app_iff in Hx
               | setoid_rewrite in_app_iff | progress simpl in H, Hx |- * ];
  tauto.

Lemma nth_error_upd_other {A} (l : list A) i j y :
  i <> j -> nth_error (upd l j y) i = nth_error l i.
Proof.
  revert i j; induction l as [|z l IH]; intros i j H; [reflexivity|].
  destruct i, j; simpl; try reflexivity; [lia|]. apply IH. lia.
Qed.

Lemma process_block_cb (o : @stt RS CB) b :
  cb_state (fst (process_block AcceptWaveform Result o b)) = cb_state o.
Proof.
  unfold process_block.
  destruct (AcceptWaveform (recognizer o) b) as [r1 [[|]|]];
    [destruct (Result r1) as [r2 [txt|]]; [destruct (str_truthy _)|]|..];
    reflexivity.
Qed.

Lemma dispatch_text_rec (o : @stt RS CB) t :
  recognizer (fst (dispatch_text callback o t)) = recognizer o.
Proof. unfold dispatch_text. destruct (callback (cb_state o) t). reflexivity. Qed.

Lemma exec_running (c : @cfg RS CB) a :
  running (obj (exec c a)) =
  match a with AStart => true | AStop => false | _ => running (obj c) end.
Proof.
  clear new_recognizer cb_init.
  destruct a as [| |d st|i]; simpl.
  - unfold cfg_start. destruct (start_obj (obj c)) as [o' evs] eqn:Hs.
    apply start_obj_shape in Hs. simpl. tauto.
  - unfold cfg_stop. destruct (stop (obj c)) as [o' evs] eqn:Hs.
    apply stop_shape in Hs. simpl. tauto.
  - unfold cfg_deliver. destruct (stream (obj c)) as [s|]; [|auto].
    destruct (s_active s); [|auto].
    destruct (_audio_callback (obj c) d st) as [o' evs] eqn:Hs.
    apply audio_callback_shape in Hs. simpl. tauto.
  - destruct (cfg_step_cases AcceptWaveform Result callback c i) as
      [E|[(k & Hn & _ & E)|[(b & q & Hn & _ & Hq & E)|[(t & q & Hn & _ & Hq & E)|
       [(b & o' & evs & Hn & Hp & E)|(t & o' & evs & Hn & Hp & E)]]]]];
      rewrite E; simpl; auto.
    + apply process_block_shape in Hp. tauto.
    + apply dispatch_text_shape in Hp. tauto.
Qed.

(** How one action changes the callback side: only a dispatch step of a
    worker holding a text calls the callback. *)
Lemma exec_callbacks (c : @cfg RS CB) a :
  (callbacks (trace (exec c a)) = callbacks (trace c) /\
   cb_state (obj (exec c a)) = cb_state (obj c)) \/
  (exists i t, a = AStep i /\
     nth_error (threads c) i = Some (OutputProcessor, THoldText t) /\
     callbacks (trace (exec c a)) = callbacks (trace c) ++ [t] /\
     cb_state (obj (exec c a)) = fst (callback (cb_state (obj c)) t)).
Proof.
  destruct a as [| |d st|i]; simpl.
  - left. unfold cfg_start, start_obj. simpl.
    rewrite proj_app_callbacks. simpl. rewrite app_nil_r. auto.
  - left. unfold cfg_stop. destruct (stop (obj c)) as [o' evs] eqn:Hs.
    pose proof Hs as Hs'. apply stop_shape in Hs as (_ & _ & Cb & _).
    simpl. rewrite proj_app_callbacks, Cb, app_nil_r. split; [reflexivity|].
    unfold stop in Hs'. simpl in Hs'.
    destruct (stream (obj c)); injection Hs' as <- _; reflexivity.
  - left. unfold cfg_deliver. destruct (stream (obj c)) as [s|]; [|auto].
    destruct (s_active s); [|auto].
    destruct (_audio_callback (obj c) d st) as [o' evs] eqn:Hs.
    pose proof Hs as Hs'. apply audio_callback_shape in Hs as (_ & _ & Cb & _).
    simpl. rewrite proj_app_callbacks, Cb, app_nil_r. split; [reflexivity|].
    unfold _audio_callback in Hs'.
    destruct (running (obj c)); injection Hs' as <- _; reflexivity.
  - destruct (cfg_step_cases AcceptWaveform Result callback c i) as
      [E|[(k & Hn & _ & E)|[(b & q & Hn & _ & Hq & E)|[(t & q & Hn & _ & Hq & E)|
       [(b & o' & evs & Hn & Hp & E)|(t & o' & evs & Hn & Hp & E)]]]]];
      rewrite E; simpl; [left; auto..| |].
    + left. pose proof Hp as Hp'. apply process_block_shape in Hp as (_ & _ & Cb & _).
      rewrite proj_app_callbacks, Cb, app_nil_r. split; [reflexivity|].
      pose proof (process_block_cb (obj c) b) as Hc. rewrite Hp' in Hc. exact Hc.
    + right. exists i, t. split; [reflexivity|]. split; [exact Hn|].
      pose proof Hp as Hp'. apply dispatch_text_shape in Hp as (Cb & _).
      rewrite proj_app_callbacks, Cb. split; [reflexivity|].
      unfold dispatch_text in Hp'. destruct (callback (cb_state (obj c)) t) as [c' r].
      injection Hp' as <- _. reflexivity.
Qed.

Lemma in_accepts b tr : In (EAccept b) tr <-> In b (accepts tr).
Proof.
  unfold accepts. rewrite in_flat_map. split.
  - intros H. exists (EAccept b). simpl; auto.
  - intros (x & Hx & Hin). destruct x; simpl in Hin; try contradiction.
    destruct Hin as [<-|[]]. exact Hx.
Qed.

Lemma in_puts_audio b tr : In (EPutAudio b) tr <-> In b (puts_audio tr).
Proof.
  unfold puts_audio. rewrite in_flat_map. split.
  - intros H. exists (EPutAudio b). simpl; auto.
  - intros (x & Hx & Hin). destruct x; simpl in Hin; try contradiction.
    destruct Hin as [<-|[]]. exact Hx.
Qed.

Lemma blk_inv_exec (c : @cfg RS CB) a : blk_inv c -> blk_inv (exec c a).
Proof.
  clear new_recognizer cb_init.
  intros H2. destruct a as [| |d st|i]; simpl.
  - unfold cfg_start. destruct (start_obj (obj c)) as [o' evs] eqn:Hs.
    apply start_obj_shape in Hs as (P & A & Cb & R & _ & Q1 & Q2 & _).
    unfold blk_inv; simpl. autorewrite with proj. rewrite P, A, Q1.
    norm_lists. incl_tac H2.
  - unfold cfg_stop. destruct (stop (obj c)) as [o' evs] eqn:Hs.
    apply stop_shape in Hs as (P & A & Cb & R & _ & Q1 & Q2 & _).
    unfold blk_inv; simpl. autorewrite with proj. rewrite P, A, Q1.
    norm_lists. exact H2.
  - unfold cfg_deliver. destruct (stream (obj c)) as [s|]; [|exact H2].
    destruct (s_active s); [|exact H2].
    destruct (_audio_callback (obj c) d st) as [o' evs] eqn:Hs.
    apply audio_callback_shape in Hs as (_ & A & Cb & R & _ & Q1 & Q2 & _).
    unfold blk_inv; simpl. autorewrite with proj. rewrite A, Q1.
    norm_lists. incl_tac H2.
  - destruct (cfg_step_cases AcceptWaveform Result callback c i) as
      [E|[(k & Hn & _ & E)|[(b & q & Hn & _ & Hq & E)|[(t & q & Hn & _ & Hq & E)|
       [(b & o' & evs & Hn & Hp & E)|(t & o' & evs & Hn & Hp & E)]]]]];
      rewrite E; [exact H2|..]; unfold blk_inv in *; simpl.
    + destruct (flat_map_upd held_block _ _ _ (k, TExited) Hn) as (l1 & l2 & _ & _ & F1 & F2).
      unfold held_blocks in *. rewrite F2. rewrite F1 in H2.
      destruct k; simpl in *; exact H2.
    + destruct (flat_map_upd held_block _ _ _ (ProcessAudio, THoldBlock b) Hn)
        as (l1 & l2 & _ & _ & F1 & F2).
      unfold held_blocks in *. rewrite F2. rewrite F1, Hq in H2. simpl in *.
      incl_tac H2.
    + destruct (flat_map_upd held_block _ _ _ (OutputProcessor, THoldText t) Hn)
        as (l1 & l2 & _ & _ & F1 & F2).
      unfold held_blocks in *. rewrite F2. rewrite F1 in H2. simpl in *. exact H2.
    + apply process_block_shape in Hp as (A & P & Cb & _ & Q2 & F & Q1 & _).
      destruct (flat_map_upd held_block _ _ _ (ProcessAudio, TTop) Hn)
        as (l1 & l2 & _ & _ & F1 & F2).
      autorewrite with proj. rewrite A, P, Q1.
      unfold held_blocks in *. rewrite F2. rewrite F1 in H2. simpl in *.
      norm_lists. incl_tac H2.
    + apply dispatch_text_shape in Hp as (Cb & A & P & R & _ & Q1 & Q2 & _).
      destruct (flat_map_upd held_block _ _ _ (OutputProcessor, TTop) Hn)
        as (l1 & l2 & _ & _ & F1 & F2).
      autorewrite with proj. rewrite A, P, Q1.
      unfold held_blocks in *. rewrite F2. rewrite F1 in H2. simpl in *.
      norm_lists. exact H2.
Qed.

Lemma blk_inv_run sched : forall (c : @cfg RS CB), blk_inv c -> blk_inv (run c sched).
Proof.
  induction sched as [|a r IH]; intros c H; [exact H|].
  simpl. apply IH, blk_inv_exec, H.
Qed.

Lemma run_running sched : forall (c : @cfg RS CB),
  running (obj (run c sched)) = last_flag sched (running (obj c)).
Proof.
  induction sched as [|a r IH]; intros c; [reflexivity|].
  simpl. rewrite IH, exec_running. destruct a; reflexivity.
Qed.

Lemma run_count k sched : forall (c : @cfg RS CB),
  count_kind k (threads (run c sched)) = count_kind k (threads c) + count_start sched.
Proof.
  induction sched as [|a r IH]; intros c; [unfold count_start; simpl; lia|].
  simpl. rewrite IH, exec_count. unfold count_start. simpl.
  destruct a; simpl; lia.
Qed.

Lemma exec_threads_stop (c : @cfg RS CB) : threads (exec c AStop) = threads c.
Proof. simpl. unfold cfg_stop. destruct (stop (obj c)). reflexivity. Qed.

Lemma exec_threads_deliver (c : @cfg RS CB) d st :
  threads (exec c (ADeliver d st)) = threads c.
Proof.
  simpl. unfold cfg_deliver. destruct (stream (obj c)) as [s|]; [|reflexivity].
  destruct (s_active s); [|reflexivity].
  destruct (_audio_callback (obj c) d st). reflexivity.
Qed.

(** X1: [self.running] is the flag set by the last [start()] or [stop()];
    nothing else changes it. *)
Theorem X1_flag_follows_lifecycle sr sched :
  running (obj (run (init_cfg sr) sched)) = last_flag sched false.
Proof. rewrite run_running. reflexivity. Qed.

(** X2: every [start()] launches one more recognition worker and one more
    dispatch worker; nothing stops a second [start()] from doing so. *)
Theorem X2_workers_per_start sr sched k :
  count_kind k (threads (run (init_cfg sr) sched)) = count_start sched.
Proof. rewrite run_count. reflexivity. Qed.

(** X3: the recognizer's state changes only when a recognition worker
    processes the block it took from the audio queue. *)
Theorem X3_recognizer_single_owner (c : @cfg RS CB) a :
  (forall i b, a = AStep i -> nth_error (threads c) i <> Some (ProcessAudio, THoldBlock b)) ->
  recognizer (obj (exec c a)) = recognizer (obj c).
Proof.
  intros H. destruct a as [| |d st|i].
  - reflexivity.
  - simpl. unfold cfg_stop, stop. simpl. destruct (stream (obj c)); reflexivity.
  - simpl. unfold cfg_deliver. destruct (stream (obj c)) as [s|]; [|reflexivity].
    destruct (s_active s); [|reflexivity].
    unfold _audio_callback. destruct (running (obj c)); reflexivity.
  - destruct (cfg_step_cases AcceptWaveform Result callback c i) as
      [E|[(k & Hn & _ & E)|[(b & q & Hn & _ & Hq & E)|[(t & q & Hn & _ & Hq & E)|
       [(b & o' & evs & Hn & Hp & E)|(t & o' & evs & Hn & Hp & E)]]]]];
      simpl; rewrite E; simpl; auto.
    + exfalso. exact (H i b eq_refl Hn).
    + pose proof (dispatch_text_rec (obj c) t) as Hd. rewrite Hp in Hd. exact Hd.
Qed.

(** X4: the callback is called, and its state changes, only when a dispatch
    worker processes the text it took from the result queue. *)
Theorem X4_callback_single_caller (c : @cfg RS CB) a :
  (forall i t, a = AStep i -> nth_error (threads c) i <> Some (OutputProcessor, THoldText t)) ->
  callbacks (trace (exec c a)) = callbacks (trace c) /\
  cb_state (obj (exec c a)) = cb_state (obj c).
Proof.
  intros H. destruct (exec_callbacks c a) as [E|(i & t & -> & Hn & _)]; [exact E|].
  exfalso. exact (H i t eq_refl Hn).
Qed.

(** X6: a worker finishes only at its loop test, and only when the flag is
    down; it never stops while holding a block or a text. *)
Theorem X6_exit_only_on_flag (c : @cfg RS CB) a i k k' s :
  nth_error (threads c) i = Some (k, s) -> s <> TExited ->
  nth_error (threads (exec c a)) i = Some (k', TExited) ->
  running (obj c) = false /\ s = TTop /\ a = AStep i.
Proof.
  intros H1 Hs H3. destruct a as [| |d st|j].
  - exfalso. simpl in H3. unfold cfg_start, start_obj in H3. simpl in H3.
    rewrite nth_error_app1 in H3 by (apply nth_error_Some; congruence).
    rewrite H1 in H3. injection H3 as _ E. contradiction.
  - rewrite exec_threads_stop, H1 in H3. injection H3 as _ E. contradiction.
  - rewrite exec_threads_deliver, H1 in H3. injection H3 as _ E. contradiction.
  - destruct (Nat.eq_dec i j) as [<-|Hij].
    + destruct (cfg_step_cases AcceptWaveform Result callback c i) as
        [E|[(k0 & Hn & Hr & E)|[(b & q & Hn & _ & Hq & E)|[(t & q & Hn & _ & Hq & E)|
         [(b & o' & evs & Hn & Hp & E)|(t & o' & evs & Hn & Hp & E)]]]]];
        simpl in H3; rewrite E in H3; simpl in H3.
      * rewrite H1 in H3. injection H3 as _ E'. contradiction.
      * rewrite H1 in Hn. injection Hn as _ ->. auto.
      * rewrite (nth_error_upd_same _ _ _ _ Hn) in H3. discriminate.
      * rewrite (nth_error_upd_same _ _ _ _ Hn) in H3. discriminate.
      * rewrite (nth_error_upd_same _ _ _ _ Hn) in H3. discriminate.
      * rewrite (nth_error_upd_same _ _ _ _ Hn) in H3. discriminate.
    + exfalso.
      destruct (cfg_step_cases AcceptWaveform Result callback c j) as
        [E|[(k0 & Hn & Hr & E)|[(b & q & Hn & _ & Hq & E)|[(t & q & Hn & _ & Hq & E)|
         [(b & o' & evs & Hn & Hp & E)|(t & o' & evs & Hn & Hp & E)]]]]];
        simpl in H3; rewrite E in H3; simpl in H3;
        rewrite ?nth_error_upd_other in H3 by exact Hij;
        rewrite H1 in H3; injection H3 as _ E'; contradiction.
Qed.

(** X7: [AcceptWaveform] is only ever called on a block that the capture
    stage put on the audio queue, however many times the system is started
    and stopped. *)
Theorem X7_accepted_blocks_were_captured sr sched b :
  In (EAccept b) (trace (run (init_cfg sr) sched)) ->
  In (EPutAudio b) (trace (run (init_cfg sr) sched)).
Proof.
  intros H. apply in_puts_audio.
  apply (blk_inv_run sched (init_cfg sr)); [intros x Hx; simpl in Hx; contradiction|].
  apply in_accepts in H. rewrite !in_app_iff. auto.
Qed.

(** X8: [main()] exits with status 2 when [parse_args] rejects the command
    line, and with status 0 otherwise: after [--help], on success after the
    operator's interrupt, and also when the model fails to load, since the
    [sys.exit(0)] of the [finally] clause replaces the constructor's
    [SystemExit(1)]. *)
Theorem X8_main_exit_status a model_ok :
  exit_code (fst (run_main_cli new_recognizer cb_init a model_ok))
    = match a with ArgsInvalid => 2%Z | _ => 0%Z end.
Proof. destruct a, model_ok; reflexivity. Qed.

(** X9: when the model loads, [main] opens and starts the stream with the
    given sample rate and 8000-frame blocks, and on the interrupt stops and
    closes it exactly once; the object ends with the flag down. *)
Theorem X9_main_device_lifecycle sr :
  filter is_device_event (w_trace (snd (run_main new_recognizer cb_init true sr)))
    = [EOpen sr 8000 Int16 1 AudioCallbackHandler; EStreamStart; EStreamStop; EStreamClose] /\
  option_map running (w_stt (snd (run_main new_recognizer cb_init true sr))) = Some false /\
  option_map (fun o => option_map s_closed (stream o))
    (w_stt (snd (run_main new_recognizer cb_init true sr))) = Some (Some true).
Proof. split; [|split]; reflexivity. Qed.

End Extras.

Section DefaultCallback.

Context {RS : Type}.
Variable new_recognizer : Z -> RS.
Variable AcceptWaveform : RS -> bytes -> RS * option bool.
Variable Result : RS -> RS * option (option string).

Local Abbreviation exec := (exec AcceptWaveform Result _default_callback).
Local Abbreviation run := (run AcceptWaveform Result _default_callback).

Lemma held_text_in l i t :
  nth_error l i = Some (OutputProcessor, THoldText t) -> In t (held_texts l).
Proof.
  intros H. apply nth_error_In in H. unfold held_texts. apply in_flat_map.
  exists (OutputProcessor, THoldText t). simpl; auto.
Qed.

Lemma default_callback_exec (c : @cfg RS (list string)) a :
  text_inv c ->
  cb_state (obj c) = map (String.append "Transcribed: ") (callbacks (trace c)) ->
  cb_state (obj (exec c a)) = map (String.append "Transcribed: ") (callbacks (trace (exec c a))).
Proof.
  intros [Hn Hi] H.
  destruct (exec_callbacks AcceptWaveform Result _default_callback c a)
    as [[C S]|(i & t & _ & Hh & C & S)].
  - rewrite C, S. exact H.
  - rewrite C, S, H, map_app. unfold _default_callback.
    assert (Hp : In t (result_puts (trace c))).
    { apply Hi. apply in_or_app. right. apply in_or_app. left.
      exact (held_text_in _ _ _ Hh). }
    rewrite Forall_forall in Hn. specialize (Hn t Hp). unfold nonblank in Hn.
    rewrite Hn. reflexivity.
Qed.

(** X10: with the default callback ([callback=None]), every call of the
    callback prints exactly one line, "Transcribed: " followed by the text,
    and nothing else is printed by it: the texts that reach it are never
    blank, so its own [if text.strip()] test always passes. *)
Theorem X10_default_callback_prints_each sr sched :
  cb_state (obj (run (init_cfg new_recognizer [] sr) sched)) =
  map (String.append "Transcribed: ") (callbacks (trace (run (init_cfg new_recognizer [] sr) sched))).
Proof.
  assert (G : forall c, text_inv c ->
    cb_state (obj c) = map (String.append "Transcribed: ") (callbacks (trace c)) ->
    cb_state (obj (run c sched)) =
    map (String.append "Transcribed: ") (callbacks (trace (run c sched)))).
  { induction sched as [|a r IH]; intros c Ht H; [exact H|].
    simpl. apply IH.
    - apply text_inv_exec, Ht.
    - apply default_callback_exec; assumption. }
  apply G; [|reflexivity].
  split; [constructor|]. intros x Hx. simpl in Hx. contradiction.
Qed.

End DefaultCallback.

(** Two blocks captured, both handed to the recognizer, the two texts
    dispatched. *)
Definition two_blocks : list action :=
  [AStart; ADeliver (blk Byte.x01) 0; ADeliver (blk Byte.x02) 1;
   AStep 0; AStep 0; AStep 0; AStep 0; AStep 1; AStep 1].

Lemma X3_witness :
  (forall i b, AStep 0 = AStep i ->
     nth_error (threads (demo_run [AStart; ADeliver (blk Byte.x01) 0])) i
       <> Some (ProcessAudio, THoldBlock b)) /\
  recognizer (obj (exec demo_accept demo_result demo_callback
                     (demo_run [AStart; ADeliver (blk Byte.x01) 0]) (AStep 0)))
    = recognizer (obj (demo_run [AStart; ADeliver (blk Byte.x01) 0])).
Proof.
  assert (H : forall i b, AStep 0 = AStep i ->
     nth_error (threads (demo_run [AStart; ADeliver (blk Byte.x01) 0])) i
       <> Some (ProcessAudio, THoldBlock b)).
  { intros i b E. injection E as <-. vm_compute. discriminate. }
  split; [exact H|].
  exact (X3_recognizer_single_owner demo_accept demo_result demo_callback _ _ H).
Defined.

Lemma X4_witness :
  (forall i t, AStep 0 = AStep i ->
     nth_error (threads demo_results_cfg) i <> Some (OutputProcessor, THoldText t)) /\
  callbacks (trace (exec demo_accept demo_result demo_callback demo_results_cfg (AStep 0)))
    = callbacks (trace demo_results_cfg) /\
  cb_state (obj (exec demo_accept demo_result demo_callback demo_results_cfg (AStep 0)))
    = cb_state (obj demo_results_cfg).
Proof.
  assert (H : forall i t, AStep 0 = AStep i ->
     nth_error (threads demo_results_cfg) i <> Some (OutputProcessor, THoldText t)).
  { intros i t E. injection E as <-. vm_compute. discriminate. }
  split; [exact H|].
  exact (X4_callback_single_caller demo_accept demo_result demo_callback _ _ H).
Defined.

Lemma X6_witness :
  nth_error (threads (demo_run [AStart; AStop])) 0 = Some (ProcessAudio, TTop) /\
  TTop <> TExited /\
  nth_error (threads (exec demo_accept demo_result demo_callback
                        (demo_run [AStart; AStop]) (AStep 0))) 0
    = Some (ProcessAudio, TExited) /\
  running (obj (demo_run [AStart; AStop])) = false.
Proof.
  assert (H1 : nth_error (threads (demo_run [AStart; AStop])) 0 = Some (ProcessAudio, TTop))
    by (vm_compute; reflexivity).
  assert (Hs : TTop <> TExited) by discriminate.
  assert (H3 : nth_error (threads (exec demo_accept demo_result demo_callback
                        (demo_run [AStart; AStop]) (AStep 0))) 0
    = Some (ProcessAudio, TExited)) by (vm_compute; reflexivity).
  split; [exact H1|]. split; [exact Hs|]. split; [exact H3|].
  exact (proj1 (X6_exit_only_on_flag demo_accept demo_result demo_callback
                  _ _ _ _ _ _ H1 Hs H3)).
Defined.

Lemma X7_witness :
  In (EAccept (blk Byte.x02)) (trace (demo_run two_blocks)) /\
  In (EPutAudio (blk Byte.x02)) (trace (demo_run two_blocks)).
Proof.
  assert (H : In (EAccept (blk Byte.x02)) (trace (demo_run two_blocks))).
  { vm_compute. repeat (first [left; reflexivity | right]). }
  split; [exact H|].
  exact (X7_accepted_blocks_were_captured (fun _ => 0%nat) demo_accept demo_result
           0%nat demo_callback 16000 two_blocks _ H).
Defined.
